(** * Git repository tags: a shallow embedding of [git_tags.py]

    The module [ultralytics/yolo/utils/callbacks/git_tags.py] offers one
    function, [repository_tags], which reads the branch, the commit hash and
    the origin URL of the repository found in the current directory, reads
    the same three facts of every submodule, and returns them as a flat
    dictionary.  All knowledge of git comes from GitPython; here the
    library is an environment of queries, each of which may raise. *)

From stdpp Require Import gmap strings list fin_maps.

Open Scope string_scope.

#[local] Set Warnings "-clear-no-such-hyp".

(** ** Python values and exceptions *)

(** The objects that reach the dictionary.  GitPython hands out plain
    strings for hashes and URLs and a [git.Head] reference for a branch;
    [PyObject] stands for any other object, known by its [__str__]. *)
Inductive pyobj : Type :=
  | PyStr (s : string)
  | PyHead (name : string)
  | PyObject (str_form : string).

Global Instance pyobj_eq_dec : EqDecision pyobj.
Proof. solve_decision. Defined.

(** The text of [val.__str__()]: a [git.Head] prints as its name. *)
Definition str_text (val : pyobj) : string :=
  match val with
  | PyStr s => s
  | PyHead name => name
  | PyObject str_form => str_form
  end.

(** [str(val)] *)
Definition py_str (val : pyobj) : pyobj := PyStr (str_text val).

(** [isinstance(val, str)] *)
Definition is_str (val : pyobj) : bool :=
  match val with
  | PyStr _ => true
  | _ => false
  end.

(** [a or b] on strings: the empty string is falsy. *)
Definition py_or (a b : string) : string :=
  match a with
  | EmptyString => b
  | String _ _ => a
  end.

(** The exceptions of interest: the one this module declares, the two with
    which GitPython reports that no repository was found, and any other
    exception of the library (a failed git command, a detached HEAD, a
    missing remote), kept with its text. *)
Inductive exn : Type :=
  | DirtyGitRepo (msg : string)
  | InvalidGitRepositoryError
  | NoSuchPathError
  | GitError (what : string).

Global Instance exn_eq_dec : EqDecision exn.
Proof. solve_decision. Defined.

Definition repository_not_found (e : exn) : bool :=
  match e with
  | InvalidGitRepositoryError | NoSuchPathError => true
  | _ => false
  end.

(** A computation either returns or raises. *)
Inductive result (A : Type) : Type :=
  | Return (a : A)
  | Raise (e : exn).
Arguments Return {A} a.
Arguments Raise {A} e.

Definition bind {A B : Type} (m : result A) (f : A → result B) : result B :=
  match m with
  | Return a => f a
  | Raise e => Raise e
  end.

Notation "x <- m ;; k" := (bind m (λ x, k))
  (at level 100, m at next level, right associativity,
   format "'[v' x  <-  m  ;; '/' k ']'").

Definition returns {A} (m : result A) : bool :=
  match m with
  | Return _ => true
  | Raise _ => false
  end.

(** ** The GitPython objects the function touches *)

(** [git.Submodule]: [name] is read while the key prefix is formatted, the
    three others are the values of the entries. *)
Record Submodule : Type := {
  name : string;
  branch : result pyobj;
  hexsha : result pyobj;
  url : result pyobj
}.

(** [git.Repo]: [is_dirty] takes the flags [untracked_files] and
    [submodules]; [head_object_hexsha] is the chain [repo.head.object.hexsha]
    and [remotes_origin_url] the chain [repo.remotes.origin.url]. *)
Record Repo : Type := {
  is_dirty : bool → bool → result bool;
  active_branch : result pyobj;
  head_object_hexsha : result pyobj;
  remotes_origin_url : result pyobj;
  submodules : result (list Submodule)
}.

(** The surroundings of a call: what the constructor
    [Repo(search_parent_directories=...)] finds from the current
    directory. *)
Record GitPython : Type := {
  Repo_init : bool → result Repo
}.

(** ** Dictionaries *)

(** [data.update(other)]: the entries of [other] win. *)
Definition dict_update (data other : gmap string pyobj) : gmap string pyobj :=
  other ∪ data.

(** The display [{k1: v1, k2: v2, k3: v3}], filled from left to right. *)
Definition dict3 (k1 : string) (v1 : pyobj) (k2 : string) (v2 : pyobj)
    (k3 : string) (v3 : pyobj) : gmap string pyobj :=
  <[k3:=v3]> (<[k2:=v2]> (<[k1:=v1]> ∅)).

(** ** [repository_tags] *)

Definition dirty_message : string :=
  "The purpose of logging git tags is being able to repoduce.             "
  +:+ String (Ascii.ascii_of_nat 10) " Please commit and push OR restore your changes".

(** The keys of one repository or submodule under the key prefix [p]. *)
Definition branch_key (p : string) : string := p +:+ "-branch".
Definition hash_key (p : string) : string := p +:+ "-hash".
Definition origin_key (p : string) : string := p +:+ "-origin".

(** [f"{prefix}-submodule-{submodule.name}"] *)
Definition submodule_prefix (prefix : string) (submodule : Submodule) : string :=
  prefix +:+ "-submodule-" +:+ name submodule.

(** The loop [for submodule in repo.submodules: data.update({...})]. *)
Fixpoint for_submodules (prefix : string) (subs : list Submodule)
    (data : gmap string pyobj) : result (gmap string pyobj) :=
  match subs with
  | [] => Return data
  | submodule :: rest =>
      let _prefix := submodule_prefix prefix submodule in
      b <- branch submodule;;
      h <- hexsha submodule;;
      u <- url submodule;;
      for_submodules prefix rest
        (dict_update data
           (dict3 (branch_key _prefix) b (hash_key _prefix) h (origin_key _prefix) u))
  end.

Definition repository_tags (git : GitPython) (prefix : string)
    (search_parent_directories suppress : bool) : result (gmap string pyobj) :=
  repo <- Repo_init git search_parent_directories;;
  dirty <- is_dirty repo true true;;
  if dirty && negb suppress then Raise (DirtyGitRepo dirty_message)
  else
    let prefix := py_or prefix "git" in
    b <- active_branch repo;;
    h <- head_object_hexsha repo;;
    o <- remotes_origin_url repo;;
    let data := dict3 (branch_key prefix) b (hash_key prefix) h (origin_key prefix) o in
    subs <- submodules repo;;
    data <- for_submodules prefix subs data;;
    Return (py_str <$> data).

(** ** Vocabulary of the statements *)

(** The three keys written under the key prefix [p]. *)
Definition keys_under (p : string) : gset string :=
  {[ branch_key p; hash_key p; origin_key p ]}.

(** Every fact of the submodule can be read. *)
Definition readable (s : Submodule) : Prop :=
  returns (branch s) ∧ returns (hexsha s) ∧ returns (url s).

(** The repository answers every query after the dirtiness one. *)
Definition reads (repo : Repo) (b h o : pyobj) (subs : list Submodule) : Prop :=
  active_branch repo = Return b ∧
  head_object_hexsha repo = Return h ∧
  remotes_origin_url repo = Return o ∧
  submodules repo = Return subs ∧
  Forall readable subs.

(** What a query raised, if it did. *)
Definition raised {A} (m : result A) : option exn :=
  match m with
  | Return _ => None
  | Raise e => Some e
  end.

(** The first exception in a sequence of queries. *)
Fixpoint first_raised (qs : list (option exn)) : option exn :=
  match qs with
  | [] => None
  | Some e :: _ => Some e
  | None :: rest => first_raised rest
  end.

(** The queries one submodule receives, in the order of evaluation. *)
Definition submodule_queries (s : Submodule) : list (option exn) :=
  [raised (branch s); raised (hexsha s); raised (url s)].

(** The queries a repository receives once the gate is passed, in the order
    of evaluation. *)
Definition repo_queries (repo : Repo) : list (option exn) :=
  [raised (active_branch repo); raised (head_object_hexsha repo);
   raised (remotes_origin_url repo); raised (submodules repo)]
  ++ match submodules repo with
     | Return subs => concat (submodule_queries <$> subs)
     | Raise _ => []
     end.

(** What the library raised during a call, if anything: the constructor,
    the dirtiness query, or, when the gate lets the call through, the first
    failing query after it. *)
Definition library_failure (git : GitPython) (spd sup : bool) : option exn :=
  match Repo_init git spd with
  | Raise e => Some e
  | Return repo =>
      match is_dirty repo true true with
      | Raise e => Some e
      | Return d =>
          if d && negb sup then None else first_raised (repo_queries repo)
      end
  end.

(** The same repository with another dirtiness query. *)
Definition answering_dirty (q : bool → bool → result bool) (repo : Repo) : Repo :=
  {| is_dirty := q;
     active_branch := active_branch repo;
     head_object_hexsha := head_object_hexsha repo;
     remotes_origin_url := remotes_origin_url repo;
     submodules := submodules repo |}.

(** The same surroundings, the repository found there seen through [f]. *)
Definition through (f : Repo → Repo) (git : GitPython) : GitPython :=
  {| Repo_init := λ spd, repo <- Repo_init git spd;; Return (f repo) |}.

(** The three entries written under the key prefix [p] for the values [b],
    [h] and [o]. *)
Definition entries (p : string) (b h o : pyobj) : list (string * pyobj) :=
  [(branch_key p, b); (hash_key p, h); (origin_key p, o)].

(** ** Sample repositories *)

(** A working tree with the facts of the module's docstring; the dirtiness
    query honours its two flags. *)
Definition working_tree (modified untracked submodule_dirty : bool)
    (subs : list Submodule) : Repo :=
  {| is_dirty := λ untracked_files with_submodules,
       Return (modified || untracked_files && untracked
               || with_submodules && submodule_dirty);
     active_branch := Return (PyHead "add_mlflow");
     head_object_hexsha := Return (PyStr "8077f7c47bc1ccc592187374a4bd5c967483910b");
     remotes_origin_url := Return (PyStr "git@github.com:YoRigid/scenera-yolov5.git");
     submodules := Return subs |}.

Definition yolov5 : Submodule :=
  {| name := "yolov5";
     branch := Return (PyHead "master");
     hexsha := Return (PyStr "6e04b94fa9fb12ff66b2329660de8a5a8e5f1b1d");
     url := Return (PyStr "https://github.com/ultralytics/yolov5") |}.

(** A second submodule that goes by the name of the first. *)
Definition yolov5_fork : Submodule :=
  {| name := "yolov5";
     branch := Return (PyHead "develop");
     hexsha := Return (PyStr "0123456789abcdef0123456789abcdef01234567");
     url := Return (PyStr "https://example.com/fork/yolov5") |}.

Definition vendor_lib : Submodule :=
  {| name := "vendor-lib";
     branch := Return (PyHead "main");
     hexsha := Return (PyStr "deadbeef");
     url := Return (PyStr "https://example.com/vendor-lib.git") |}.

(** A submodule that is not checked out: its branch cannot be read. *)
Definition absent_submodule : Submodule :=
  {| name := "absent";
     branch := Raise (GitError "submodule absent: not checked out");
     hexsha := Return (PyStr "deadbeef");
     url := Return (PyStr "https://example.com/absent.git") |}.

(** The current directory is the root of [repo]. *)
Definition at_root (repo : Repo) : GitPython :=
  {| Repo_init := λ _, Return repo |}.

(** The current directory lies below the root of [repo]: the repository is
    found only when the parent directories are searched. *)
Definition below_root (repo : Repo) : GitPython :=
  {| Repo_init := λ search_parent_directories,
       if search_parent_directories then Return repo
       else Raise InvalidGitRepositoryError |}.

(** A repository whose index cannot be compared with the working tree. *)
Definition broken_index : Repo :=
  answering_dirty (λ _ _, Raise (GitError "git diff: index file corrupt"))
    (working_tree false false false []).

(** ** Strings *)

Section strings.
Implicit Types a b c x y : string.

Lemma append_cons ch a b : String ch a +:+ b = String ch (a +:+ b).
Proof. reflexivity. Qed.

Lemma append_assoc a b c : (a +:+ b) +:+ c = a +:+ b +:+ c.
Proof.
  induction a as [|ch a IH]; [done |].
  by rewrite !append_cons, IH.
Qed.

Lemma chars_append a b :
  String.list_ascii_of_string (a +:+ b)
  = (String.list_ascii_of_string a ++ String.list_ascii_of_string b)%list.
Proof.
  induction a as [|ch a IH]; [done |].
  rewrite append_cons. simpl. by rewrite IH.
Qed.

Lemma chars_length a : length (String.list_ascii_of_string a) = String.length a.
Proof. induction a as [|ch a IH]; simpl; [done | by rewrite IH]. Qed.

Lemma chars_inj a b : String.list_ascii_of_string a = String.list_ascii_of_string b → a = b.
Proof.
  intros E. rewrite <- (String.string_of_list_ascii_of_string a), E.
  apply String.string_of_list_ascii_of_string.
Qed.

(** Two strings that end in suffixes of the same length agree piecewise. *)
Lemma append_inj_suffix a b x y :
  String.length x = String.length y → a +:+ x = b +:+ y → a = b ∧ x = y.
Proof.
  intros Hlen E. apply (f_equal String.list_ascii_of_string) in E.
  rewrite !chars_append in E.
  apply app_inj_2 in E as [Ea Ex]; [| by rewrite !chars_length].
  split; by apply chars_inj.
Qed.
End strings.

(** ** Keys *)

Section keys.
Implicit Types p : string.
Implicit Types s : Submodule.

Lemma branch_hash_ne p q : branch_key p ≠ hash_key q.
Proof.
  unfold branch_key, hash_key. intros E.
  change "-branch" with ("-b" +:+ "ranch") in E. rewrite <- append_assoc in E.
  by apply append_inj_suffix in E as [_ ?].
Qed.

Lemma branch_origin_ne p q : branch_key p ≠ origin_key q.
Proof.
  unfold branch_key, origin_key. intros E.
  by apply append_inj_suffix in E as [_ ?].
Qed.

Lemma hash_origin_ne p q : hash_key p ≠ origin_key q.
Proof.
  unfold hash_key, origin_key. intros E.
  change "-origin" with ("-o" +:+ "rigin") in E. rewrite <- append_assoc in E.
  by apply append_inj_suffix in E as [_ ?].
Qed.

Lemma branch_key_inj p q : branch_key p = branch_key q → p = q.
Proof. intros E. by apply append_inj_suffix in E as [? _]. Qed.

Lemma hash_key_inj p q : hash_key p = hash_key q → p = q.
Proof. intros E. by apply append_inj_suffix in E as [? _]. Qed.

Lemma origin_key_inj p q : origin_key p = origin_key q → p = q.
Proof. intros E. by apply append_inj_suffix in E as [? _]. Qed.

(** Two key prefixes with a common key are the same prefix. *)
Lemma keys_under_meet p q k : k ∈ keys_under p → k ∈ keys_under q → p = q.
Proof.
  unfold keys_under. rewrite !elem_of_union, !elem_of_singleton.
  pose proof (branch_hash_ne p q). pose proof (branch_hash_ne q p).
  pose proof (branch_origin_ne p q). pose proof (branch_origin_ne q p).
  pose proof (hash_origin_ne p q). pose proof (hash_origin_ne q p).
  pose proof (branch_key_inj p q). pose proof (hash_key_inj p q).
  pose proof (origin_key_inj p q).
  intros [[->| ->]| ->] [[E|E]|E]; auto; congruence.
Qed.

Lemma size_keys_under p : size (keys_under p) = 3.
Proof.
  unfold keys_under.
  pose proof (branch_hash_ne p p). pose proof (branch_origin_ne p p).
  pose proof (hash_origin_ne p p).
  rewrite !size_union, !size_singleton by set_solver. done.
Qed.

Lemma submodule_prefix_inj p s1 s2 :
  submodule_prefix p s1 = submodule_prefix p s2 → name s1 = name s2.
Proof.
  unfold submodule_prefix. intros E.
  by apply (inj (String.append p)), (inj (String.append "-submodule-")) in E.
Qed.

(** A key prefix is never one of its own submodule prefixes: the infix
    [-submodule-{name}] makes the latter longer. *)
Lemma submodule_prefix_ne p s : p ≠ submodule_prefix p s.
Proof.
  unfold submodule_prefix. intros E.
  apply (f_equal String.length) in E.
  rewrite <- !chars_length, !chars_append, !length_app, !chars_length in E.
  simpl in E. lia.
Qed.

Lemma keys_under_submodule_disjoint p s :
  keys_under p ## keys_under (submodule_prefix p s).
Proof.
  intros k Hp Hs. by apply (submodule_prefix_ne p s), (keys_under_meet _ _ k).
Qed.

Lemma keys_under_submodules_disjoint p s1 s2 :
  name s1 ≠ name s2 →
  keys_under (submodule_prefix p s1) ## keys_under (submodule_prefix p s2).
Proof.
  intros Hne k H1 H2.
  by apply Hne, (submodule_prefix_inj p), (keys_under_meet _ _ k).
Qed.
End keys.

(** ** Dictionary displays *)

Section displays.
Implicit Types p k : string.
Implicit Types b h o : pyobj.

Lemma dom_dict3 p b h o :
  dom (dict3 (branch_key p) b (hash_key p) h (origin_key p) o) = keys_under p.
Proof.
  unfold dict3, keys_under. rewrite !dom_insert_L, dom_empty_L. set_solver.
Qed.

Lemma lookup_dict3_branch p b h o :
  dict3 (branch_key p) b (hash_key p) h (origin_key p) o !! branch_key p = Some b.
Proof.
  unfold dict3.
  rewrite lookup_insert_ne by (symmetry; apply branch_origin_ne).
  rewrite lookup_insert_ne by (symmetry; apply branch_hash_ne).
  apply lookup_insert_eq.
Qed.

Lemma lookup_dict3_hash p b h o :
  dict3 (branch_key p) b (hash_key p) h (origin_key p) o !! hash_key p = Some h.
Proof.
  unfold dict3.
  rewrite lookup_insert_ne by (symmetry; apply hash_origin_ne).
  apply lookup_insert_eq.
Qed.

Lemma lookup_dict3_origin p b h o :
  dict3 (branch_key p) b (hash_key p) h (origin_key p) o !! origin_key p = Some o.
Proof. apply lookup_insert_eq. Qed.

Lemma lookup_dict3_None p b h o k :
  k ∉ keys_under p →
  dict3 (branch_key p) b (hash_key p) h (origin_key p) o !! k = None.
Proof. rewrite <- (dom_dict3 p b h o). apply not_elem_of_dom. Qed.

Lemma lookup_dict_update (data other : gmap string pyobj) k :
  dict_update data other !! k =
    match other !! k with Some v => Some v | None => data !! k end.
Proof.
  unfold dict_update. rewrite lookup_union.
  by destruct (other !! k), (data !! k).
Qed.

Lemma dom_dict_update (data other : gmap string pyobj) :
  dom (dict_update data other) = dom other ∪ dom data.
Proof. apply dom_union_L. Qed.
End displays.

(** ** The loop over the submodules *)

Section loop.
Implicit Types p k : string.
Implicit Types s : Submodule.
Implicit Types subs : list Submodule.
Implicit Types data d : gmap string pyobj.

(** One turn of the loop, for a submodule whose facts are known. *)
Lemma for_submodules_cons p s subs data sb sh su :
  branch s = Return sb → hexsha s = Return sh → url s = Return su →
  for_submodules p (s :: subs) data =
    for_submodules p subs
      (dict_update data
         (dict3 (branch_key (submodule_prefix p s)) sb
                (hash_key (submodule_prefix p s)) sh
                (origin_key (submodule_prefix p s)) su)).
Proof. intros Hb Hh Hu. simpl. by rewrite Hb, Hh, Hu. Qed.

(** A run that returns has read every submodule. *)
Lemma for_submodules_inv p s subs data d :
  for_submodules p (s :: subs) data = Return d →
  ∃ sb sh su, branch s = Return sb ∧ hexsha s = Return sh ∧ url s = Return su.
Proof.
  simpl. destruct (branch s) as [sb|]; simpl; [|done].
  destruct (hexsha s) as [sh|]; simpl; [|done].
  destruct (url s) as [su|]; simpl; [|done]. by eexists _, _, _.
Qed.

Lemma readable_facts s :
  readable s ↔
  ∃ sb sh su, branch s = Return sb ∧ hexsha s = Return sh ∧ url s = Return su.
Proof.
  unfold readable. split.
  - destruct (branch s) as [sb|], (hexsha s) as [sh|], (url s) as [su|];
      simpl; intros (?&?&?); try done. by eexists _, _, _.
  - by intros (sb&sh&su&->&->&->).
Qed.

Lemma for_submodules_returns p subs data :
  Forall readable subs → ∃ d, for_submodules p subs data = Return d.
Proof.
  intros Hall. revert data.
  induction Hall as [|s subs Hs _ IH]; intros data; [by eexists |].
  apply readable_facts in Hs as (sb&sh&su&Hb&Hh&Hu).
  rewrite (for_submodules_cons _ _ _ _ _ _ _ Hb Hh Hu). apply IH.
Qed.

Lemma for_submodules_readable p subs data d :
  for_submodules p subs data = Return d → Forall readable subs.
Proof.
  revert data. induction subs as [|s subs IH]; intros data Hrun; [done |].
  destruct (for_submodules_inv _ _ _ _ _ Hrun) as (sb&sh&su&Hb&Hh&Hu).
  rewrite (for_submodules_cons _ _ _ _ _ _ _ Hb Hh Hu) in Hrun.
  constructor; [| by eapply IH].
  apply readable_facts. by eexists _, _, _.
Qed.

Lemma for_submodules_dom p subs data d :
  for_submodules p subs data = Return d →
  dom d = dom data ∪ ⋃ ((λ s, keys_under (submodule_prefix p s)) <$> subs).
Proof.
  revert data. induction subs as [|s subs IH]; intros data Hrun.
  - simpl in *. injection Hrun as <-. set_solver.
  - destruct (for_submodules_inv _ _ _ _ _ Hrun) as (sb&sh&su&Hb&Hh&Hu).
    rewrite (for_submodules_cons _ _ _ _ _ _ _ Hb Hh Hu) in Hrun.
    rewrite (IH _ Hrun), dom_dict_update, dom_dict3, fmap_cons.
    simpl. set_solver.
Qed.

(** A key that belongs to no submodule keeps its entry. *)
Lemma for_submodules_lookup_other p subs data d k :
  for_submodules p subs data = Return d →
  Forall (λ s, k ∉ keys_under (submodule_prefix p s)) subs →
  d !! k = data !! k.
Proof.
  intros Hrun Hall. revert data Hrun.
  induction Hall as [|s subs Hs _ IH]; intros data Hrun.
  - simpl in Hrun. by injection Hrun as <-.
  - destruct (for_submodules_inv _ _ _ _ _ Hrun) as (sb&sh&su&Hb&Hh&Hu).
    rewrite (for_submodules_cons _ _ _ _ _ _ _ Hb Hh Hu) in Hrun.
    rewrite (IH _ Hrun), lookup_dict_update.
    by rewrite lookup_dict3_None.
Qed.

(** The entries of a submodule after which no submodule of the same name
    comes are the ones found at the end, whatever came before. *)
Lemma for_submodules_lookup_last p l1 s l2 data d sb sh su :
  for_submodules p (l1 ++ s :: l2) data = Return d →
  Forall (λ s', name s' ≠ name s) l2 →
  branch s = Return sb → hexsha s = Return sh → url s = Return su →
  d !! branch_key (submodule_prefix p s) = Some sb ∧
  d !! hash_key (submodule_prefix p s) = Some sh ∧
  d !! origin_key (submodule_prefix p s) = Some su.
Proof.
  intros Hrun Hlater Hb Hh Hu. revert data Hrun.
  induction l1 as [|s0 l1 IH]; intros data Hrun.
  - simpl app in Hrun.
    rewrite (for_submodules_cons _ _ _ _ _ _ _ Hb Hh Hu) in Hrun.
    assert (∀ k, k ∈ keys_under (submodule_prefix p s) →
              Forall (λ s', k ∉ keys_under (submodule_prefix p s')) l2) as Hk.
    { intros k Hin. eapply Forall_impl; [exact Hlater |].
      intros s' Hne Hin'. simpl in Hne.
      by apply (keys_under_submodules_disjoint p s' s Hne k). }
    rewrite !(for_submodules_lookup_other _ _ _ _ _ Hrun)
      by (apply Hk; unfold keys_under; set_solver).
    rewrite !lookup_dict_update.
    by rewrite lookup_dict3_branch, lookup_dict3_hash, lookup_dict3_origin.
  - rewrite <- app_comm_cons in Hrun.
    destruct (for_submodules_inv _ _ _ _ _ Hrun) as (b0&h0&u0&Hb0&Hh0&Hu0).
    rewrite (for_submodules_cons _ _ _ _ _ _ _ Hb0 Hh0 Hu0) in Hrun.
    by eapply IH.
Qed.

End loop.

(** ** The function as a whole *)

Section calls.
Implicit Types git : GitPython.
Implicit Types repo : Repo.
Implicit Types prefix p k : string.
Implicit Types spd sup d : bool.
Implicit Types b h o : pyobj.
Implicit Types subs : list Submodule.
Implicit Types data m : gmap string pyobj.

(** What remains of a call once the repository is found and the gate is
    passed. *)
Lemma repository_tags_past_gate git prefix spd sup repo d :
  Repo_init git spd = Return repo →
  is_dirty repo true true = Return d →
  d && negb sup = false →
  repository_tags git prefix spd sup =
    (b <- active_branch repo;;
     h <- head_object_hexsha repo;;
     o <- remotes_origin_url repo;;
     subs <- submodules repo;;
     data <- for_submodules (py_or prefix "git") subs
               (dict3 (branch_key (py_or prefix "git")) b
                      (hash_key (py_or prefix "git")) h
                      (origin_key (py_or prefix "git")) o);;
     Return (py_str <$> data)).
Proof.
  intros Hrepo Hdirty Hgate. unfold repository_tags.
  rewrite Hrepo. simpl. rewrite Hdirty. simpl. by rewrite Hgate.
Qed.

Lemma repository_tags_returns git prefix spd sup repo d b h o subs :
  Repo_init git spd = Return repo →
  is_dirty repo true true = Return d →
  d && negb sup = false →
  reads repo b h o subs →
  ∃ data,
    for_submodules (py_or prefix "git") subs
      (dict3 (branch_key (py_or prefix "git")) b
             (hash_key (py_or prefix "git")) h
             (origin_key (py_or prefix "git")) o) = Return data ∧
    repository_tags git prefix spd sup = Return (py_str <$> data).
Proof.
  intros Hrepo Hdirty Hgate (Hb&Hh&Ho&Hsubs&Hall).
  rewrite (repository_tags_past_gate _ _ _ _ _ _ Hrepo Hdirty Hgate).
  rewrite Hb, Hh, Ho, Hsubs. simpl.
  destruct (for_submodules_returns (py_or prefix "git") subs
              (dict3 (branch_key (py_or prefix "git")) b
                     (hash_key (py_or prefix "git")) h
                     (origin_key (py_or prefix "git")) o) Hall) as [data Hrun].
  exists data. by rewrite Hrun.
Qed.

Lemma repository_tags_inv git prefix spd sup m :
  repository_tags git prefix spd sup = Return m →
  ∃ repo d b h o subs data,
    Repo_init git spd = Return repo ∧
    is_dirty repo true true = Return d ∧
    d && negb sup = false ∧
    reads repo b h o subs ∧
    for_submodules (py_or prefix "git") subs
      (dict3 (branch_key (py_or prefix "git")) b
             (hash_key (py_or prefix "git")) h
             (origin_key (py_or prefix "git")) o) = Return data ∧
    m = py_str <$> data.
Proof.
  unfold repository_tags.
  destruct (Repo_init git spd) as [repo|] eqn:Hrepo; simpl; [|done].
  destruct (is_dirty repo true true) as [d|] eqn:Hdirty; simpl; [|done].
  destruct (d && negb sup) eqn:Hgate; [done |].
  destruct (active_branch repo) as [b|] eqn:Hb; simpl; [|done].
  destruct (head_object_hexsha repo) as [h|] eqn:Hh; simpl; [|done].
  destruct (remotes_origin_url repo) as [o|] eqn:Ho; simpl; [|done].
  destruct (submodules repo) as [subs|] eqn:Hsubs; simpl; [|done].
  destruct (for_submodules _ subs _) as [data|] eqn:Hrun; simpl; [|done].
  intros [= <-]. exists repo, d, b, h, o, subs, data.
  repeat split; try done. by eapply for_submodules_readable.
Qed.

(** The entries of the main repository survive the loop. *)
Lemma main_entries_after_loop p subs b h o data :
  for_submodules p subs
    (dict3 (branch_key p) b (hash_key p) h (origin_key p) o) = Return data →
  data !! branch_key p = Some b ∧
  data !! hash_key p = Some h ∧
  data !! origin_key p = Some o.
Proof.
  intros Hrun.
  assert (∀ k, k ∈ keys_under p →
            Forall (λ s, k ∉ keys_under (submodule_prefix p s)) subs) as Hk.
  { intros k Hin. apply Forall_forall. intros s _ Hin'.
    by apply (keys_under_submodule_disjoint p s k). }
  rewrite !(for_submodules_lookup_other _ _ _ _ _ Hrun)
    by (apply Hk; unfold keys_under; set_solver).
  by rewrite lookup_dict3_branch, lookup_dict3_hash, lookup_dict3_origin.
Qed.

Lemma for_submodules_outcome p subs data :
  match first_raised (concat (submodule_queries <$> subs)) with
  | Some e => for_submodules p subs data = Raise e
  | None => returns (for_submodules p subs data)
  end.
Proof.
  revert data. induction subs as [|s subs IH]; intros data; [done |].
  simpl. destruct (branch s) as [sb|]; simpl; [|done].
  destruct (hexsha s) as [sh|]; simpl; [|done].
  destruct (url s) as [su|]; simpl; [|done]. apply IH.
Qed.

(** Past the gate, the call raises what the first failing query raised,
    and returns when none fails. *)
Lemma repository_tags_outcome git prefix spd sup repo d :
  Repo_init git spd = Return repo →
  is_dirty repo true true = Return d →
  d && negb sup = false →
  match first_raised (repo_queries repo) with
  | Some e => repository_tags git prefix spd sup = Raise e
  | None => returns (repository_tags git prefix spd sup)
  end.
Proof.
  intros Hrepo Hdirty Hgate.
  rewrite (repository_tags_past_gate _ _ _ _ _ _ Hrepo Hdirty Hgate).
  unfold repo_queries.
  destruct (active_branch repo) as [b|]; simpl; [|done].
  destruct (head_object_hexsha repo) as [h|]; simpl; [|done].
  destruct (remotes_origin_url repo) as [o|]; simpl; [|done].
  destruct (submodules repo) as [subs|]; simpl; [|done].
  pose proof (for_submodules_outcome (py_or prefix "git") subs
                (dict3 (branch_key (py_or prefix "git")) b
                       (hash_key (py_or prefix "git")) h
                       (origin_key (py_or prefix "git")) o)) as Hloop.
  destruct (first_raised _) as [e|].
  - by rewrite Hloop.
  - by destruct (for_submodules _ subs _).
Qed.
End calls.

(** ** The clean-tree gate *)

(** C1: when the repository is dirty, that is when the dirtiness query,
    asked with untracked files and submodules taken into account, answers
    true, a call with [suppress=False] raises [DirtyGitRepo] and returns no
    dictionary. *)
Theorem dirty_tree_raises (git : GitPython) (prefix : string) (spd : bool)
    (repo : Repo) :
  Repo_init git spd = Return repo →
  is_dirty repo true true = Return true →
  repository_tags git prefix spd false = Raise (DirtyGitRepo dirty_message) ∧
  ∀ m, repository_tags git prefix spd false ≠ Return m.
Proof.
  intros Hrepo Hdirty.
  assert (repository_tags git prefix spd false = Raise (DirtyGitRepo dirty_message))
    as Hraise.
  { unfold repository_tags. rewrite Hrepo. simpl. by rewrite Hdirty. }
  split; [done |]. intros m. by rewrite Hraise.
Qed.

Lemma dirty_tree_raises_witness :
  repository_tags (at_root (working_tree false true false [yolov5])) "git" false false
    = Raise (DirtyGitRepo dirty_message) ∧
  ∀ m, repository_tags (at_root (working_tree false true false [yolov5]))
         "git" false false ≠ Return m.
Proof.
  apply (dirty_tree_raises _ _ _ (working_tree false true false [yolov5]));
    reflexivity.
Defined.

(** C2: on a dirty repository whose facts can be read, a call with
    [suppress=True] returns a dictionary, and the three entries of the main
    repository hold its branch, commit hash and origin URL. *)
Theorem suppress_returns_on_dirty_tree (git : GitPython) (prefix : string)
    (spd : bool) (repo : Repo) (b h o : pyobj) (subs : list Submodule) :
  Repo_init git spd = Return repo →
  is_dirty repo true true = Return true →
  reads repo b h o subs →
  ∃ m, repository_tags git prefix spd true = Return m ∧
       m !! branch_key (py_or prefix "git") = Some (py_str b) ∧
       m !! hash_key (py_or prefix "git") = Some (py_str h) ∧
       m !! origin_key (py_or prefix "git") = Some (py_str o).
Proof.
  intros Hrepo Hdirty Hreads.
  destruct (repository_tags_returns git prefix spd true repo true b h o subs)
    as (data & Hrun & Hcall); try done.
  apply main_entries_after_loop in Hrun as (Hb & Hh & Ho).
  exists (py_str <$> data). rewrite !lookup_fmap, Hb, Hh, Ho. done.
Qed.

Lemma suppress_returns_on_dirty_tree_witness :
  ∃ m, repository_tags (at_root (working_tree true true true [yolov5])) "exp" false true
         = Return m ∧
       m !! "exp-branch" = Some (PyStr "add_mlflow") ∧
       m !! "exp-hash" = Some (PyStr "8077f7c47bc1ccc592187374a4bd5c967483910b") ∧
       m !! "exp-origin" = Some (PyStr "git@github.com:YoRigid/scenera-yolov5.git").
Proof.
  apply (suppress_returns_on_dirty_tree
           (at_root (working_tree true true true [yolov5])) "exp" false
           (working_tree true true true [yolov5])
           (PyHead "add_mlflow")
           (PyStr "8077f7c47bc1ccc592187374a4bd5c967483910b")
           (PyStr "git@github.com:YoRigid/scenera-yolov5.git")
           [yolov5]).
  - reflexivity.
  - reflexivity.
  - repeat split; try reflexivity. repeat constructor.
Defined.

(** C3, as the claim has it: under [suppress=True] the dirtiness query
    would not be asked, so a repository whose other queries all answer
    would always get its dictionary.  It does not: the query is asked
    before [suppress] is looked at, and what it raises comes out.  On
    [broken_index] the call with [suppress=True] raises the exception of the
    dirtiness query, while the same repository with a dirtiness query that
    answers gets its dictionary. *)
Lemma suppress_still_asks_for_dirtiness :
  repository_tags (at_root broken_index) "git" false true
    = Raise (GitError "git diff: index file corrupt") ∧
  returns (repository_tags
             (at_root (answering_dirty (λ _ _, Return true) broken_index))
             "git" false true) ∧
  ¬ (∀ (git : GitPython) (prefix : string) (spd : bool) (repo : Repo)
       (b h o : pyobj) (subs : list Submodule),
       Repo_init git spd = Return repo →
       reads repo b h o subs →
       returns (repository_tags git prefix spd true)).
Proof.
  split; [reflexivity |]. split; [exact I |].
  intros Hclaim.
  specialize (Hclaim (at_root broken_index) "git" false broken_index
                (PyHead "add_mlflow")
                (PyStr "8077f7c47bc1ccc592187374a4bd5c967483910b")
                (PyStr "git@github.com:YoRigid/scenera-yolov5.git") []).
  apply Hclaim; [reflexivity |].
  repeat split; try reflexivity. constructor.
Qed.

(** C3, amended: under [suppress=True] the answer of the dirtiness query is
    ignored, the call goes on as a call with [suppress=False] does on the
    same repository reporting a clean tree; the query is asked all the same,
    and an exception it raises is the outcome of the call. *)
Theorem suppress_ignores_dirtiness_answer (git : GitPython) (prefix : string)
    (spd : bool) (repo : Repo) :
  Repo_init git spd = Return repo →
  repository_tags git prefix spd true =
    match is_dirty repo true true with
    | Return _ =>
        repository_tags (through (answering_dirty (λ _ _, Return false)) git)
          prefix spd false
    | Raise e => Raise e
    end.
Proof.
  intros Hrepo. destruct (is_dirty repo true true) as [d|e] eqn:Hdirty.
  - rewrite (repository_tags_past_gate git prefix spd true repo d);
      [| done | done | by destruct d].
    rewrite (repository_tags_past_gate _ prefix spd false
               (answering_dirty (λ _ _, Return false) repo) false);
      [done | | done | done].
    simpl. by rewrite Hrepo.
  - unfold repository_tags. rewrite Hrepo. simpl. by rewrite Hdirty.
Qed.

Lemma suppress_ignores_dirtiness_answer_witness :
  repository_tags (at_root (working_tree false true false [yolov5])) "git" false true =
  repository_tags
    (through (answering_dirty (λ _ _, Return false))
       (at_root (working_tree false true false [yolov5])))
    "git" false false.
Proof.
  apply (suppress_ignores_dirtiness_answer
           (at_root (working_tree false true false [yolov5])) "git" false
           (working_tree false true false [yolov5])).
  reflexivity.
Defined.



(** ** The dictionary *)

(** C6: when several submodules bear one name, no exception is raised and
    the entries under that name are those of the last such submodule in the
    order of iteration: its branch, hash and URL replace the earlier
    ones. *)
Theorem last_submodule_of_a_name_wins (git : GitPython) (prefix : string)
    (spd sup : bool) (repo : Repo) (d : bool) (b h o : pyobj)
    (l1 : list Submodule) (s : Submodule) (l2 : list Submodule)
    (sb sh su : pyobj) :
  Repo_init git spd = Return repo →
  is_dirty repo true true = Return d →
  d && negb sup = false →
  reads repo b h o (l1 ++ s :: l2) →
  Forall (λ s', name s' ≠ name s) l2 →
  branch s = Return sb → hexsha s = Return sh → url s = Return su →
  ∃ m, repository_tags git prefix spd sup = Return m ∧
       m !! branch_key (submodule_prefix (py_or prefix "git") s) = Some (py_str sb) ∧
       m !! hash_key (submodule_prefix (py_or prefix "git") s) = Some (py_str sh) ∧
       m !! origin_key (submodule_prefix (py_or prefix "git") s) = Some (py_str su).
Proof.
  intros Hrepo Hdirty Hgate Hreads Hlater Hb Hh Hu.
  destruct (repository_tags_returns git prefix spd sup repo d b h o _
              Hrepo Hdirty Hgate Hreads) as (data & Hrun & Hcall).
  destruct (for_submodules_lookup_last _ _ _ _ _ _ _ _ _ Hrun Hlater Hb Hh Hu)
    as (Hkb & Hkh & Hku).
  exists (py_str <$> data). rewrite !lookup_fmap, Hkb, Hkh, Hku. done.
Qed.

Lemma last_submodule_of_a_name_wins_witness :
  ∃ m, repository_tags
         (at_root (working_tree false false false [yolov5; yolov5_fork; vendor_lib]))
         "git" false false = Return m ∧
       m !! "git-submodule-yolov5-branch" = Some (PyStr "develop") ∧
       m !! "git-submodule-yolov5-hash"
         = Some (PyStr "0123456789abcdef0123456789abcdef01234567") ∧
       m !! "git-submodule-yolov5-origin"
         = Some (PyStr "https://example.com/fork/yolov5").
Proof.
  apply (last_submodule_of_a_name_wins
           (at_root (working_tree false false false [yolov5; yolov5_fork; vendor_lib]))
           "git" false false
           (working_tree false false false [yolov5; yolov5_fork; vendor_lib]) false
           (PyHead "add_mlflow")
           (PyStr "8077f7c47bc1ccc592187374a4bd5c967483910b")
           (PyStr "git@github.com:YoRigid/scenera-yolov5.git")
           [yolov5] yolov5_fork [vendor_lib]
           (PyHead "develop")
           (PyStr "0123456789abcdef0123456789abcdef01234567")
           (PyStr "https://example.com/fork/yolov5")).
  - reflexivity.
  - reflexivity.
  - reflexivity.
  - repeat split; try reflexivity. repeat constructor.
  - repeat constructor. discriminate.
  - reflexivity.
  - reflexivity.
  - reflexivity.
Defined.

(** C7: the empty prefix stands for ["git"]: a call with [prefix=""] has the
    outcome of the call with [prefix="git"], hence the same keys, and a
    dictionary it returns has the key [git-hash]. *)
Theorem empty_prefix_is_git (git : GitPython) (spd sup : bool) :
  repository_tags git "" spd sup = repository_tags git "git" spd sup ∧
  ∀ m, repository_tags git "" spd sup = Return m → "git-hash" ∈ dom m.
Proof.
  split; [reflexivity |]. intros m Hcall.
  apply repository_tags_inv in Hcall as (?&?& b & h & o & subs & data &_&_&_&_& Hrun & ->).
  apply main_entries_after_loop in Hrun as (_ & Hh & _).
  apply elem_of_dom. rewrite lookup_fmap.
  change "git-hash" with (hash_key (py_or "" "git")). by rewrite Hh.
Qed.

Lemma empty_prefix_is_git_witness :
  repository_tags (at_root (working_tree false false false [])) "" false false
  = repository_tags (at_root (working_tree false false false [])) "git" false false ∧
  "git-hash" ∈ dom ({[ "git-branch" := PyStr "add_mlflow";
                       "git-hash" := PyStr "8077f7c47bc1ccc592187374a4bd5c967483910b";
                       "git-origin" := PyStr "git@github.com:YoRigid/scenera-yolov5.git" ]}
                    : gmap string pyobj).
Proof.
  destruct (empty_prefix_is_git (at_root (working_tree false false false []))
              false false) as [Hsame Hkey].
  split; [exact Hsame |]. apply Hkey. reflexivity.
Defined.

(** C8: a clean repository with the single submodule [vendor-lib], at
    branch [main], hash [deadbeef] and origin
    [https://example.com/vendor-lib.git], is given, under the default prefix,
    the three entries of the main repository and exactly these three for the
    submodule. *)
Theorem vendor_lib_entries (git : GitPython) (spd : bool) (repo : Repo)
    (b h o : pyobj) (s : Submodule) (vb vh vu : pyobj) :
  Repo_init git spd = Return repo →
  is_dirty repo true true = Return false →
  reads repo b h o [s] →
  name s = "vendor-lib" →
  branch s = Return vb → str_text vb = "main" →
  hexsha s = Return vh → str_text vh = "deadbeef" →
  url s = Return vu → str_text vu = "https://example.com/vendor-lib.git" →
  repository_tags git "git" spd false =
    Return {[ "git-branch" := py_str b;
              "git-hash" := py_str h;
              "git-origin" := py_str o;
              "git-submodule-vendor-lib-branch" := PyStr "main";
              "git-submodule-vendor-lib-hash" := PyStr "deadbeef";
              "git-submodule-vendor-lib-origin" :=
                PyStr "https://example.com/vendor-lib.git" ]}.
Proof.
  intros Hrepo Hdirty (Hb & Hh & Ho & Hsubs & _) Hname Hvb Htb Hvh Hth Hvu Htu.
  rewrite (repository_tags_past_gate git "git" spd false repo false) by done.
  rewrite Hb, Hh, Ho, Hsubs. simpl. rewrite Hvb, Hvh, Hvu. simpl.
  unfold submodule_prefix. rewrite Hname. f_equal.
  unfold dict_update, dict3.
  rewrite map_fmap_union, !fmap_insert, !fmap_empty.
  replace (py_str vb) with (PyStr "main") by (by unfold py_str; rewrite Htb).
  replace (py_str vh) with (PyStr "deadbeef") by (by unfold py_str; rewrite Hth).
  replace (py_str vu) with (PyStr "https://example.com/vendor-lib.git")
    by (by unfold py_str; rewrite Htu).
  reflexivity.
Qed.

Lemma vendor_lib_entries_witness :
  repository_tags (at_root (working_tree false false false [vendor_lib]))
    "git" false false =
    Return {[ "git-branch" := PyStr "add_mlflow";
              "git-hash" := PyStr "8077f7c47bc1ccc592187374a4bd5c967483910b";
              "git-origin" := PyStr "git@github.com:YoRigid/scenera-yolov5.git";
              "git-submodule-vendor-lib-branch" := PyStr "main";
              "git-submodule-vendor-lib-hash" := PyStr "deadbeef";
              "git-submodule-vendor-lib-origin" :=
                PyStr "https://example.com/vendor-lib.git" ]}.
Proof.
  apply (vendor_lib_entries
           (at_root (working_tree false false false [vendor_lib])) false
           (working_tree false false false [vendor_lib])
           (PyHead "add_mlflow")
           (PyStr "8077f7c47bc1ccc592187374a4bd5c967483910b")
           (PyStr "git@github.com:YoRigid/scenera-yolov5.git")
           vendor_lib
           (PyHead "main") (PyStr "deadbeef")
           (PyStr "https://example.com/vendor-lib.git")).
  - reflexivity.
  - reflexivity.
  - repeat split; try reflexivity. repeat constructor.
  - reflexivity.
  - reflexivity.
  - reflexivity.
  - reflexivity.
  - reflexivity.
  - reflexivity.
  - reflexivity.
Defined.

(** ** Failures *)

(** C9: an exception of the library is the outcome of the call, as it was
    raised: the one with which the constructor reports that no repository
    was found, the one of the dirtiness query, or, past the gate, the one of
    the first failing query; and a call raises nothing else but the
    [DirtyGitRepo] of the gate.  A call that raises returns no
    dictionary. *)
Theorem failures_propagate (git : GitPython) (prefix : string) (spd sup : bool)
    (e : exn) :
  (Repo_init git spd = Raise e → repository_not_found e →
     ∃ e', repository_tags git prefix spd sup = Raise e' ∧ repository_not_found e') ∧
  (library_failure git spd sup = Some e →
     repository_tags git prefix spd sup = Raise e) ∧
  (repository_tags git prefix spd sup = Raise e →
     library_failure git spd sup = Some e ∨ e = DirtyGitRepo dirty_message).
Proof.
  split.
  { intros Hrepo Hkind. exists e. split; [| done].
    unfold repository_tags. by rewrite Hrepo. }
  unfold library_failure.
  destruct (Repo_init git spd) as [repo|e0] eqn:Hrepo.
  - destruct (is_dirty repo true true) as [d|e1] eqn:Hdirty.
    + destruct (d && negb sup) eqn:Hgate.
      * split; [done |]. unfold repository_tags.
        rewrite Hrepo. simpl. rewrite Hdirty. simpl. rewrite Hgate.
        intros [= <-]. by right.
      * pose proof (repository_tags_outcome git prefix spd sup repo d
                      Hrepo Hdirty Hgate) as Hout.
        destruct (first_raised (repo_queries repo)) as [e2|].
        -- rewrite Hout. split; [by intros [= <-] | intros [= <-]; by left].
        -- split; [done |].
           by destruct (repository_tags git prefix spd sup).
    + unfold repository_tags. rewrite Hrepo. simpl. rewrite Hdirty. simpl.
      split; [by intros [= <-] | intros [= <-]; by left].
  - unfold repository_tags. rewrite Hrepo. simpl.
    split; [by intros [= <-] | intros [= <-]; by left].
Qed.

Lemma failures_propagate_witness :
  (∃ e', repository_tags
           (below_root (working_tree false false false [yolov5])) "git" false false
         = Raise e' ∧ repository_not_found e') ∧
  repository_tags
    (at_root (working_tree false false false [yolov5; absent_submodule; vendor_lib]))
    "git" false false
    = Raise (GitError "submodule absent: not checked out") ∧
  (library_failure (at_root broken_index) false true
     = Some (GitError "git diff: index file corrupt") ∨
   GitError "git diff: index file corrupt" = DirtyGitRepo dirty_message).
Proof.
  split; [| split].
  - apply (failures_propagate
             (below_root (working_tree false false false [yolov5]))
             "git" false false InvalidGitRepositoryError).
    + reflexivity.
    + exact I.
  - apply (failures_propagate
             (at_root (working_tree false false false
                         [yolov5; absent_submodule; vendor_lib]))
             "git" false false (GitError "submodule absent: not checked out")).
    reflexivity.
  - apply (failures_propagate (at_root broken_index) "git" false true
             (GitError "git diff: index file corrupt")).
    reflexivity.
Defined.

(** C10: a call that returns has put the branch, the hash and the origin of
    the main repository under [{prefix}-branch], [{prefix}-hash] and
    [{prefix}-origin], and they are still there at the end: the keys of a
    submodule, whatever its name, are none of these three. *)
Theorem main_entries_kept (git : GitPython) (prefix : string) (spd sup : bool)
    (m : gmap string pyobj) :
  repository_tags git prefix spd sup = Return m →
  ∃ repo b h o,
    Repo_init git spd = Return repo ∧
    active_branch repo = Return b ∧
    head_object_hexsha repo = Return h ∧
    remotes_origin_url repo = Return o ∧
    m !! branch_key (py_or prefix "git") = Some (py_str b) ∧
    m !! hash_key (py_or prefix "git") = Some (py_str h) ∧
    m !! origin_key (py_or prefix "git") = Some (py_str o) ∧
    ∀ s : Submodule,
      keys_under (py_or prefix "git")
      ## keys_under (submodule_prefix (py_or prefix "git") s).
Proof.
  intros Hcall.
  apply repository_tags_inv in Hcall
    as (repo & d & b & h & o & subs & data & Hrepo & _ & _ & Hreads & Hrun & ->).
  destruct Hreads as (Hb & Hh & Ho & _).
  apply main_entries_after_loop in Hrun as (Hkb & Hkh & Hko).
  exists repo, b, h, o. rewrite !lookup_fmap, Hkb, Hkh, Hko.
  repeat split; try done. intros s. apply keys_under_submodule_disjoint.
Qed.

Lemma main_entries_kept_witness :
  ∃ repo b h o,
    Repo_init (at_root (working_tree false false false [yolov5])) false = Return repo ∧
    active_branch repo = Return b ∧
    head_object_hexsha repo = Return h ∧
    remotes_origin_url repo = Return o ∧
    ({[ "exp-branch" := PyStr "add_mlflow";
        "exp-hash" := PyStr "8077f7c47bc1ccc592187374a4bd5c967483910b";
        "exp-origin" := PyStr "git@github.com:YoRigid/scenera-yolov5.git";
        "exp-submodule-yolov5-branch" := PyStr "master";
        "exp-submodule-yolov5-hash" := PyStr "6e04b94fa9fb12ff66b2329660de8a5a8e5f1b1d";
        "exp-submodule-yolov5-origin" := PyStr "https://github.com/ultralytics/yolov5" ]}
     : gmap string pyobj) !! branch_key "exp" = Some (py_str b) ∧
    ({[ "exp-branch" := PyStr "add_mlflow";
        "exp-hash" := PyStr "8077f7c47bc1ccc592187374a4bd5c967483910b";
        "exp-origin" := PyStr "git@github.com:YoRigid/scenera-yolov5.git";
        "exp-submodule-yolov5-branch" := PyStr "master";
        "exp-submodule-yolov5-hash" := PyStr "6e04b94fa9fb12ff66b2329660de8a5a8e5f1b1d";
        "exp-submodule-yolov5-origin" := PyStr "https://github.com/ultralytics/yolov5" ]}
     : gmap string pyobj) !! hash_key "exp" = Some (py_str h) ∧
    ({[ "exp-branch" := PyStr "add_mlflow";
        "exp-hash" := PyStr "8077f7c47bc1ccc592187374a4bd5c967483910b";
        "exp-origin" := PyStr "git@github.com:YoRigid/scenera-yolov5.git";
        "exp-submodule-yolov5-branch" := PyStr "master";
        "exp-submodule-yolov5-hash" := PyStr "6e04b94fa9fb12ff66b2329660de8a5a8e5f1b1d";
        "exp-submodule-yolov5-origin" := PyStr "https://github.com/ultralytics/yolov5" ]}
     : gmap string pyobj) !! origin_key "exp" = Some (py_str o) ∧
    ∀ s : Submodule, keys_under "exp" ## keys_under (submodule_prefix "exp" s).
Proof.
  apply (main_entries_kept (at_root (working_tree false false false [yolov5]))
           "exp" false false).
  reflexivity.
Defined.

(** * More about [repository_tags] *)

(** ** Keys and prefix *)

Lemma py_or_nonempty (prefix : string) : prefix ≠ "" → py_or prefix "git" = prefix.
Proof. by destruct prefix. Qed.

Lemma elem_of_keys_under (k p : string) :
  k ∈ keys_under p ↔ k = branch_key p ∨ k = hash_key p ∨ k = origin_key p.
Proof.
  unfold keys_under. rewrite !elem_of_union, !elem_of_singleton. tauto.
Qed.

(** The keys of a returned dictionary, in terms of the submodules the
    repository reported. *)
Lemma returned_dom (git : GitPython) (prefix : string) (spd sup : bool)
    (m : gmap string pyobj) (repo : Repo) (subs : list Submodule) :
  repository_tags git prefix spd sup = Return m →
  Repo_init git spd = Return repo →
  submodules repo = Return subs →
  dom m = keys_under (py_or prefix "git") ∪
          ⋃ ((λ s, keys_under (submodule_prefix (py_or prefix "git") s)) <$> subs).
Proof.
  intros Hcall Hrepo Hsubs.
  apply repository_tags_inv in Hcall
    as (repo' & d & b & h & o & subs' & data & Hrepo' & _ & _ & Hreads & Hrun & ->).
  rewrite Hrepo in Hrepo'. injection Hrepo' as <-.
  destruct Hreads as (_ & _ & _ & Hsubs' & _).
  rewrite Hsubs in Hsubs'. injection Hsubs' as <-.
  by rewrite dom_fmap_L, (for_submodules_dom _ _ _ _ Hrun), dom_dict3.
Qed.

(** Every key lies under the prefix or under the prefix of a submodule. *)
Lemma returned_key_inv (git : GitPython) (prefix : string) (spd sup : bool)
    (m : gmap string pyobj) (k : string) :
  repository_tags git prefix spd sup = Return m →
  k ∈ dom m →
  k ∈ keys_under (py_or prefix "git") ∨
  ∃ s, k ∈ keys_under (submodule_prefix (py_or prefix "git") s).
Proof.
  intros Hcall Hk.
  pose proof Hcall as Hinv.
  apply repository_tags_inv in Hinv
    as (repo & d & b & h & o & subs & data & Hrepo & _ & _ & Hreads & _ & _).
  destruct Hreads as (_ & _ & _ & Hsubs & _).
  rewrite (returned_dom _ _ _ _ _ _ _ Hcall Hrepo Hsubs) in Hk.
  apply elem_of_union in Hk as [Hk | Hk]; [by left | right].
  apply elem_of_union_list in Hk as (X & HX & Hk).
  apply list_elem_of_fmap in HX as (s & -> & _). by exists s.
Qed.

(** X1: every key of a returned dictionary begins with the prefix in use
    (the given one, or [git] for the empty one) followed by a dash. *)
Theorem keys_begin_with_prefix (git : GitPython) (prefix : string) (spd sup : bool)
    (m : gmap string pyobj) (k : string) :
  repository_tags git prefix spd sup = Return m →
  k ∈ dom m →
  ∃ rest, k = py_or prefix "git" +:+ "-" +:+ rest.
Proof.
  intros Hcall Hk.
  destruct (returned_key_inv _ _ _ _ _ _ Hcall Hk) as [Hmain | [s Hsub]].
  - apply elem_of_keys_under in Hmain as [-> | [-> | ->]].
    + by exists "branch".
    + by exists "hash".
    + by exists "origin".
  - apply elem_of_keys_under in Hsub as [-> | [-> | ->]];
      unfold branch_key, hash_key, origin_key, submodule_prefix;
      rewrite !append_assoc.
    + by exists ("submodule-" +:+ name s +:+ "-branch").
    + by exists ("submodule-" +:+ name s +:+ "-hash").
    + by exists ("submodule-" +:+ name s +:+ "-origin").
Qed.

Lemma keys_begin_with_prefix_witness :
  ∃ rest, "exp-submodule-yolov5-hash" = "exp" +:+ "-" +:+ rest.
Proof.
  apply (keys_begin_with_prefix
           (at_root (working_tree false false false [yolov5])) "exp" false false
           {[ "exp-branch" := PyStr "add_mlflow";
              "exp-hash" := PyStr "8077f7c47bc1ccc592187374a4bd5c967483910b";
              "exp-origin" := PyStr "git@github.com:YoRigid/scenera-yolov5.git";
              "exp-submodule-yolov5-branch" := PyStr "master";
              "exp-submodule-yolov5-hash" := PyStr "6e04b94fa9fb12ff66b2329660de8a5a8e5f1b1d";
              "exp-submodule-yolov5-origin" := PyStr "https://github.com/ultralytics/yolov5" ]}
           "exp-submodule-yolov5-hash").
  - reflexivity.
  - apply elem_of_dom. by eexists.
Defined.

(** X2: a prefix that is neither empty nor [git] is used as it is: the
    dictionary has the three keys under it and none of [git-branch],
    [git-hash], [git-origin], whatever the submodules are called. *)
Theorem custom_prefix_replaces_git (git : GitPython) (prefix : string)
    (spd sup : bool) (m : gmap string pyobj) :
  repository_tags git prefix spd sup = Return m →
  prefix ≠ "" →
  prefix ≠ "git" →
  keys_under prefix ⊆ dom m ∧ keys_under "git" ## dom m.
Proof.
  intros Hcall Hne Hgit. split.
  - pose proof Hcall as Hinv.
    apply repository_tags_inv in Hinv
      as (repo & d & b & h & o & subs & data & Hrepo & _ & _ & Hreads & _ & _).
    destruct Hreads as (_ & _ & _ & Hsubs & _).
    rewrite (returned_dom _ _ _ _ _ _ _ Hcall Hrepo Hsubs), (py_or_nonempty _ Hne).
    apply union_subseteq_l.
  - intros k Hk Hdom.
    destruct (returned_key_inv _ _ _ _ _ _ Hcall Hdom) as [Hmain | [s Hsub]];
      rewrite (py_or_nonempty _ Hne) in *.
    + by apply Hgit, eq_sym, (keys_under_meet _ _ k).
    + pose proof (keys_under_meet _ _ k Hk Hsub) as E.
      unfold submodule_prefix in E. apply (f_equal String.length) in E.
      rewrite <- !chars_length, !chars_append, !length_app, !chars_length in E.
      simpl in E. lia.
Qed.

Lemma custom_prefix_replaces_git_witness :
  keys_under "exp" ⊆
    dom ({[ "exp-branch" := PyStr "add_mlflow";
            "exp-hash" := PyStr "8077f7c47bc1ccc592187374a4bd5c967483910b";
            "exp-origin" := PyStr "git@github.com:YoRigid/scenera-yolov5.git" ]}
         : gmap string pyobj) ∧
  keys_under "git" ##
    dom ({[ "exp-branch" := PyStr "add_mlflow";
            "exp-hash" := PyStr "8077f7c47bc1ccc592187374a4bd5c967483910b";
            "exp-origin" := PyStr "git@github.com:YoRigid/scenera-yolov5.git" ]}
         : gmap string pyobj).
Proof.
  apply (custom_prefix_replaces_git
           (at_root (working_tree false false false [])) "exp" false false).
  - reflexivity.
  - discriminate.
  - discriminate.
Defined.

(** ** The gate and the outcome *)


(** X4: all or nothing: a call returns a dictionary exactly when the
    repository is found, the gate lets it through, and the branch, the hash,
    the origin, the list of submodules and the three facts of every
    submodule can all be read. *)
Theorem returns_iff_everything_reads (git : GitPython) (prefix : string)
    (spd sup : bool) :
  returns (repository_tags git prefix spd sup) ↔
  ∃ repo d b h o subs,
    Repo_init git spd = Return repo ∧
    is_dirty repo true true = Return d ∧
    d && negb sup = false ∧
    reads repo b h o subs.
Proof.
  split.
  - destruct (repository_tags git prefix spd sup) as [m|] eqn:Hcall; [| done].
    intros _.
    apply repository_tags_inv in Hcall
      as (repo & d & b & h & o & subs & data & Hrepo & Hdirty & Hgate & Hreads & _).
    by exists repo, d, b, h, o, subs.
  - intros (repo & d & b & h & o & subs & Hrepo & Hdirty & Hgate & Hreads).
    destruct (repository_tags_returns git prefix spd sup repo d b h o subs
                Hrepo Hdirty Hgate Hreads) as (data & _ & ->).
    done.
Qed.

Lemma returns_iff_everything_reads_witness :
  returns (repository_tags
             (at_root (working_tree false false false [yolov5; vendor_lib]))
             "git" false false) ∧
  ¬ ∃ repo d b h o subs,
      Repo_init (at_root (working_tree false false false [yolov5; absent_submodule]))
        false = Return repo ∧
      is_dirty repo true true = Return d ∧
      d && negb false = false ∧
      reads repo b h o subs.
Proof.
  split.
  - apply (returns_iff_everything_reads
             (at_root (working_tree false false false [yolov5; vendor_lib]))
             "git" false false).
    exists (working_tree false false false [yolov5; vendor_lib]), false,
      (PyHead "add_mlflow"),
      (PyStr "8077f7c47bc1ccc592187374a4bd5c967483910b"),
      (PyStr "git@github.com:YoRigid/scenera-yolov5.git"),
      [yolov5; vendor_lib].
    repeat split; try reflexivity. repeat constructor.
  - intros Hreads.
    apply (returns_iff_everything_reads
             (at_root (working_tree false false false [yolov5; absent_submodule]))
             "git" false false) in Hreads.
    exact Hreads.
Defined.

(** X5: the gate fires exactly on a dirty tree that is not suppressed: the
    call raises [DirtyGitRepo] with the library having raised nothing if and
    only if the repository is found, the dirtiness query answers true and
    [suppress] is false. *)
Theorem gate_fires_iff_dirty_and_not_suppressed (git : GitPython)
    (prefix : string) (spd sup : bool) :
  (repository_tags git prefix spd sup = Raise (DirtyGitRepo dirty_message) ∧
   library_failure git spd sup = None) ↔
  ∃ repo, Repo_init git spd = Return repo ∧
          is_dirty repo true true = Return true ∧
          sup = false.
Proof.
  unfold library_failure. split.
  - intros [Hcall Hlib].
    destruct (Repo_init git spd) as [repo|] eqn:Hrepo; [| done].
    destruct (is_dirty repo true true) as [d|] eqn:Hdirty; [| done].
    destruct (d && negb sup) eqn:Hgate.
    + exists repo. by destruct d, sup.
    + pose proof (repository_tags_outcome git prefix spd sup repo d
                    Hrepo Hdirty Hgate) as Hout.
      rewrite Hlib, Hcall in Hout. done.
  - intros (repo & Hrepo & Hdirty & ->).
    rewrite Hrepo, Hdirty. simpl. split; [| done].
    unfold repository_tags. rewrite Hrepo. simpl. by rewrite Hdirty.
Qed.

Lemma gate_fires_iff_dirty_and_not_suppressed_witness :
  repository_tags (at_root (working_tree false false true [yolov5])) "git" false false
    = Raise (DirtyGitRepo dirty_message) ∧
  library_failure (at_root (working_tree false false true [yolov5])) false false = None.
Proof.
  apply (gate_fires_iff_dirty_and_not_suppressed
           (at_root (working_tree false false true [yolov5])) "git" false false).
  exists (working_tree false false true [yolov5]). repeat split; reflexivity.
Defined.

(** ** Where the entries come from *)

Lemma lookup_dict3_Some (k1 : string) (v1 : pyobj) (k2 : string) (v2 : pyobj)
    (k3 : string) (v3 : pyobj) (k : string) (v : pyobj) :
  dict3 k1 v1 k2 v2 k3 v3 !! k = Some v →
  (k, v) ∈ [(k1, v1); (k2, v2); (k3, v3)].
Proof.
  unfold dict3. rewrite !lookup_insert_Some, lookup_empty.
  intros [[<- <-] | [_ [[<- <-] | [_ [[<- <-] | [_ ?]]]]]]; [| | | done].
  - do 2 apply list_elem_of_further. apply list_elem_of_here.
  - apply list_elem_of_further, list_elem_of_here.
  - apply list_elem_of_here.
Qed.

(** An entry found after the loop was there before it or was written for
    one of the submodules. *)
Lemma for_submodules_lookup_inv (p : string) (subs : list Submodule)
    (data d : gmap string pyobj) (k : string) (v : pyobj) :
  for_submodules p subs data = Return d →
  d !! k = Some v →
  data !! k = Some v ∨
  ∃ s sb sh su,
    s ∈ subs ∧ branch s = Return sb ∧ hexsha s = Return sh ∧ url s = Return su ∧
    (k, v) ∈ entries (submodule_prefix p s) sb sh su.
Proof.
  revert data. induction subs as [|s subs IH]; intros data Hrun Hk.
  - simpl in Hrun. injection Hrun as <-. by left.
  - destruct (for_submodules_inv _ _ _ _ _ Hrun) as (sb & sh & su & Hb & Hh & Hu).
    rewrite (for_submodules_cons _ _ _ _ _ _ _ Hb Hh Hu) in Hrun.
    destruct (IH _ Hrun Hk) as [Hhere | (s' & sb' & sh' & su' & Hin & Hrest)].
    + rewrite lookup_dict_update in Hhere.
      destruct (dict3 _ sb _ sh _ su !! k) as [w|] eqn:Hw; [| by left].
      injection Hhere as ->. right. exists s, sb, sh, su.
      repeat split; try done; [apply list_elem_of_here |].
      by apply lookup_dict3_Some.
    + right. exists s', sb', sh', su'. split; [| done].
      by apply list_elem_of_further.
Qed.

(** C5: every value of a returned dictionary is a [str], and it is the
    string form of the object the library handed out for that key: the
    branch, hash or origin of the main repository, or the branch, hash or
    URL of a reported submodule under whose name the key lies.  A string
    stays as it is, a [git.Head] becomes its name, any other object becomes
    what its [__str__] gives. *)
Theorem values_are_strings (git : GitPython) (prefix : string) (spd sup : bool)
    (m : gmap string pyobj) (k : string) (v : pyobj) :
  repository_tags git prefix spd sup = Return m →
  m !! k = Some v →
  is_str v ∧
  ∃ repo b h o subs raw,
    Repo_init git spd = Return repo ∧
    reads repo b h o subs ∧
    ((k, raw) ∈ entries (py_or prefix "git") b h o ∨
     ∃ s sb sh su,
       s ∈ subs ∧
       branch s = Return sb ∧ hexsha s = Return sh ∧ url s = Return su ∧
       (k, raw) ∈ entries (submodule_prefix (py_or prefix "git") s) sb sh su) ∧
    v = PyStr match raw with
              | PyStr s => s
              | PyHead name => name
              | PyObject str_form => str_form
              end.
Proof.
  intros Hcall Hk.
  apply repository_tags_inv in Hcall
    as (repo & d & b & h & o & subs & data & Hrepo & _ & _ & Hreads & Hrun & ->).
  rewrite lookup_fmap in Hk. apply fmap_Some in Hk as (raw & Hraw & ->).
  split; [done |].
  exists repo, b, h, o, subs, raw. split; [done |]. split; [done |].
  split; [| by destruct raw].
  destruct (for_submodules_lookup_inv _ _ _ _ _ _ Hrun Hraw)
    as [Hmain | (s & sb & sh & su & Hin & Hb & Hh & Hu & Hent)].
  - left. by apply lookup_dict3_Some.
  - right. by exists s, sb, sh, su.
Qed.

Lemma values_are_strings_witness :
  repository_tags (at_root (working_tree false false false [])) "git" false false
    = Return {[ "git-branch" := PyStr "add_mlflow";
                "git-hash" := PyStr "8077f7c47bc1ccc592187374a4bd5c967483910b";
                "git-origin" := PyStr "git@github.com:YoRigid/scenera-yolov5.git" ]} ∧
  ({[ "git-branch" := PyStr "add_mlflow";
      "git-hash" := PyStr "8077f7c47bc1ccc592187374a4bd5c967483910b";
      "git-origin" := PyStr "git@github.com:YoRigid/scenera-yolov5.git" ]}
   : gmap string pyobj) !! "git-branch" = Some (PyStr "add_mlflow") ∧
  is_str (PyStr "add_mlflow") ∧
  ∃ repo b h o subs raw,
    Repo_init (at_root (working_tree false false false [])) false = Return repo ∧
    reads repo b h o subs ∧
    (("git-branch", raw) ∈ entries "git" b h o ∨
     ∃ s sb sh su,
       s ∈ subs ∧
       branch s = Return sb ∧ hexsha s = Return sh ∧ url s = Return su ∧
       ("git-branch", raw) ∈ entries (submodule_prefix "git" s) sb sh su) ∧
    PyStr "add_mlflow" = PyStr match raw with
                               | PyStr s => s
                               | PyHead name => name
                               | PyObject str_form => str_form
                               end.
Proof.
  split; [reflexivity |]. split; [reflexivity |].
  apply (values_are_strings
           (at_root (working_tree false false false [])) "git" false false
           {[ "git-branch" := PyStr "add_mlflow";
              "git-hash" := PyStr "8077f7c47bc1ccc592187374a4bd5c967483910b";
              "git-origin" := PyStr "git@github.com:YoRigid/scenera-yolov5.git" ]}
           "git-branch" (PyStr "add_mlflow")).
  - reflexivity.
  - reflexivity.
Defined.

(** X6: nothing is made up: every entry of a returned dictionary is one of
    the three entries of the main repository, or one of the three entries of
    a submodule the repository reported, under that submodule's name and
    with [str()] of that submodule's own branch, hash or URL. *)
Theorem entries_come_from_the_repository (git : GitPython) (prefix : string)
    (spd sup : bool) (m : gmap string pyobj) (k : string) (v : pyobj) :
  repository_tags git prefix spd sup = Return m →
  m !! k = Some v →
  ∃ repo b h o subs,
    Repo_init git spd = Return repo ∧
    reads repo b h o subs ∧
    ((k, v) ∈ entries (py_or prefix "git") (py_str b) (py_str h) (py_str o) ∨
     ∃ s sb sh su,
       s ∈ subs ∧
       branch s = Return sb ∧ hexsha s = Return sh ∧ url s = Return su ∧
       (k, v) ∈ entries (submodule_prefix (py_or prefix "git") s)
                  (py_str sb) (py_str sh) (py_str su)).
Proof.
  intros Hcall Hk.
  apply repository_tags_inv in Hcall
    as (repo & d & b & h & o & subs & data & Hrepo & _ & _ & Hreads & Hrun & ->).
  rewrite lookup_fmap in Hk. apply fmap_Some in Hk as (raw & Hraw & ->).
  exists repo, b, h, o, subs. split; [done |]. split; [done |].
  assert (∀ q x y z, (k, raw) ∈ entries q x y z →
            (k, py_str raw) ∈ entries q (py_str x) (py_str y) (py_str z)) as Hstr.
  { intros q x y z Hin. unfold entries in *.
    rewrite !elem_of_cons, elem_of_nil in *.
    destruct Hin as [[= -> ->] | [[= -> ->] | [[= -> ->] | []]]]; auto. }
  destruct (for_submodules_lookup_inv _ _ _ _ _ _ Hrun Hraw)
    as [Hmain | (s & sb & sh & su & Hin & Hb & Hh & Hu & Hent)].
  - left. by apply Hstr, lookup_dict3_Some.
  - right. exists s, sb, sh, su. repeat split; try done. by apply Hstr.
Qed.

Lemma entries_come_from_the_repository_witness :
  ∃ repo b h o subs,
    Repo_init (at_root (working_tree false false false [yolov5])) false = Return repo ∧
    reads repo b h o subs ∧
    (("git-submodule-yolov5-branch", PyStr "master")
       ∈ entries "git" (py_str b) (py_str h) (py_str o) ∨
     ∃ s sb sh su,
       s ∈ subs ∧
       branch s = Return sb ∧ hexsha s = Return sh ∧ url s = Return su ∧
       ("git-submodule-yolov5-branch", PyStr "master")
         ∈ entries (submodule_prefix "git" s) (py_str sb) (py_str sh) (py_str su)).
Proof.
  apply (entries_come_from_the_repository
           (at_root (working_tree false false false [yolov5])) "git" false false
           {[ "git-branch" := PyStr "add_mlflow";
              "git-hash" := PyStr "8077f7c47bc1ccc592187374a4bd5c967483910b";
              "git-origin" := PyStr "git@github.com:YoRigid/scenera-yolov5.git";
              "git-submodule-yolov5-branch" := PyStr "master";
              "git-submodule-yolov5-hash" := PyStr "6e04b94fa9fb12ff66b2329660de8a5a8e5f1b1d";
              "git-submodule-yolov5-origin" := PyStr "https://github.com/ultralytics/yolov5" ]}
           "git-submodule-yolov5-branch" (PyStr "master")).
  - reflexivity.
  - reflexivity.
Defined.

(** ** Submodules of distinct names *)

Lemma NoDup_names_later (l1 : list Submodule) (s : Submodule)
    (l2 : list Submodule) :
  NoDup (name <$> (l1 ++ s :: l2)%list) →
  Forall (λ s', name s' ≠ name s) l2.
Proof.
  rewrite fmap_app, fmap_cons. intros Hnd.
  apply NoDup_app in Hnd as (_ & _ & Hnd).
  apply NoDup_cons in Hnd as [Hs _].
  apply Forall_forall. intros s' Hin E. apply Hs. rewrite <- E.
  by apply list_elem_of_fmap_2.
Qed.

(** X7: when the submodules have distinct names nothing is lost: every
    submodule the repository reported has its three keys in the dictionary,
    with [str()] of its own branch, hash and URL. *)
Theorem distinct_names_lose_nothing (git : GitPython) (prefix : string)
    (spd sup : bool) (repo : Repo) (d : bool) (b h o : pyobj)
    (subs : list Submodule) (s : Submodule) (sb sh su : pyobj) :
  Repo_init git spd = Return repo →
  is_dirty repo true true = Return d →
  d && negb sup = false →
  reads repo b h o subs →
  NoDup (name <$> subs) →
  s ∈ subs →
  branch s = Return sb → hexsha s = Return sh → url s = Return su →
  ∃ m, repository_tags git prefix spd sup = Return m ∧
       m !! branch_key (submodule_prefix (py_or prefix "git") s) = Some (py_str sb) ∧
       m !! hash_key (submodule_prefix (py_or prefix "git") s) = Some (py_str sh) ∧
       m !! origin_key (submodule_prefix (py_or prefix "git") s) = Some (py_str su).
Proof.
  intros Hrepo Hdirty Hgate Hreads Hnames Hin Hb Hh Hu.
  destruct (repository_tags_returns git prefix spd sup repo d b h o subs
              Hrepo Hdirty Hgate Hreads) as (data & Hrun & Hcall).
  apply list_elem_of_split in Hin as (l1 & l2 & ->).
  apply NoDup_names_later in Hnames.
  destruct (for_submodules_lookup_last _ _ _ _ _ _ _ _ _ Hrun Hnames Hb Hh Hu)
    as (Hkb & Hkh & Hku).
  exists (py_str <$> data). rewrite !lookup_fmap, Hkb, Hkh, Hku. done.
Qed.

Lemma distinct_names_lose_nothing_witness :
  ∃ m, repository_tags
         (at_root (working_tree false false false [yolov5; vendor_lib]))
         "git" false false = Return m ∧
       m !! "git-submodule-yolov5-branch" = Some (PyStr "master") ∧
       m !! "git-submodule-yolov5-hash"
         = Some (PyStr "6e04b94fa9fb12ff66b2329660de8a5a8e5f1b1d") ∧
       m !! "git-submodule-yolov5-origin"
         = Some (PyStr "https://github.com/ultralytics/yolov5").
Proof.
  apply (distinct_names_lose_nothing
           (at_root (working_tree false false false [yolov5; vendor_lib]))
           "git" false false
           (working_tree false false false [yolov5; vendor_lib]) false
           (PyHead "add_mlflow")
           (PyStr "8077f7c47bc1ccc592187374a4bd5c967483910b")
           (PyStr "git@github.com:YoRigid/scenera-yolov5.git")
           [yolov5; vendor_lib] yolov5
           (PyHead "master")
           (PyStr "6e04b94fa9fb12ff66b2329660de8a5a8e5f1b1d")
           (PyStr "https://github.com/ultralytics/yolov5")).
  - reflexivity.
  - reflexivity.
  - reflexivity.
  - repeat split; try reflexivity. repeat constructor.
  - compute_done.
  - apply list_elem_of_here.
  - reflexivity.
  - reflexivity.
  - reflexivity.
Defined.

(** ** The order of the submodules *)

(** Two updates with dictionaries of disjoint keys commute. *)
Lemma dict_update_comm (data d1 d2 : gmap string pyobj) :
  dom d1 ## dom d2 →
  dict_update (dict_update data d1) d2 = dict_update (dict_update data d2) d1.
Proof.
  intros Hdisj. unfold dict_update.
  rewrite !(assoc_L (∪)). f_equal.
  symmetry. by apply map_union_comm, map_disjoint_dom.
Qed.

(** The loop does not mind the order of readable submodules of distinct
    names. *)
Lemma for_submodules_Permutation (p : string) (subs subs' : list Submodule)
    (data : gmap string pyobj) :
  subs ≡ₚ subs' →
  Forall readable subs →
  NoDup (name <$> subs) →
  for_submodules p subs data = for_submodules p subs' data.
Proof.
  intros Hperm. revert data.
  induction Hperm as [|x l l' Hperm IH|x y l|l l' l'' Hperm1 IH1 Hperm2 IH2];
    intros data Hall Hnames.
  - done.
  - apply Forall_cons in Hall as [Hx Hall].
    rewrite fmap_cons in Hnames. apply NoDup_cons in Hnames as [_ Hnames].
    apply readable_facts in Hx as (sb & sh & su & Hb & Hh & Hu).
    rewrite !(for_submodules_cons _ _ _ _ _ _ _ Hb Hh Hu). by apply IH.
  - apply Forall_cons in Hall as [Hy Hall].
    apply Forall_cons in Hall as [Hx _].
    rewrite !fmap_cons in Hnames. apply NoDup_cons in Hnames as [Hne _].
    apply not_elem_of_cons in Hne as [Hne _].
    apply readable_facts in Hx as (xb & xh & xu & Hxb & Hxh & Hxu).
    apply readable_facts in Hy as (yb & yh & yu & Hyb & Hyh & Hyu).
    rewrite (for_submodules_cons _ _ _ _ _ _ _ Hyb Hyh Hyu).
    rewrite (for_submodules_cons _ _ _ _ _ _ _ Hxb Hxh Hxu).
    rewrite (for_submodules_cons _ _ _ _ _ _ _ Hxb Hxh Hxu).
    rewrite (for_submodules_cons _ _ _ _ _ _ _ Hyb Hyh Hyu).
    f_equal. apply dict_update_comm. rewrite !dom_dict3.
    by apply keys_under_submodules_disjoint.
  - rewrite IH1 by done. apply IH2.
    + by rewrite <- Hperm1.
    + by rewrite <- Hperm1.
Qed.

(** X8: when the submodules can be read and have distinct names, the order
    in which the library reports them does not show: two repositories with
    the same branch, hash and origin and the same submodules in another
    order are given the same dictionary. *)
Theorem order_of_submodules_is_immaterial (git git' : GitPython)
    (prefix : string) (spd sup : bool) (repo repo' : Repo) (d d' : bool)
    (b h o : pyobj) (subs subs' : list Submodule) :
  Repo_init git spd = Return repo →
  Repo_init git' spd = Return repo' →
  is_dirty repo true true = Return d →
  is_dirty repo' true true = Return d' →
  d && negb sup = false →
  d' && negb sup = false →
  reads repo b h o subs →
  reads repo' b h o subs' →
  subs ≡ₚ subs' →
  NoDup (name <$> subs) →
  repository_tags git prefix spd sup = repository_tags git' prefix spd sup ∧
  returns (repository_tags git prefix spd sup).
Proof.
  intros Hrepo Hrepo' Hdirty Hdirty' Hgate Hgate' Hreads Hreads' Hperm Hnames.
  destruct (repository_tags_returns git prefix spd sup repo d b h o subs
              Hrepo Hdirty Hgate Hreads) as (data & Hrun & Hcall).
  destruct (repository_tags_returns git' prefix spd sup repo' d' b h o subs'
              Hrepo' Hdirty' Hgate' Hreads') as (data' & Hrun' & Hcall').
  destruct Hreads as (_ & _ & _ & _ & Hall).
  rewrite (for_submodules_Permutation _ _ _ _ Hperm Hall Hnames), Hrun' in Hrun.
  injection Hrun as <-. by rewrite Hcall, Hcall'.
Qed.

Lemma order_of_submodules_is_immaterial_witness :
  repository_tags (at_root (working_tree false false false [yolov5; vendor_lib]))
    "git" false false
  = repository_tags (at_root (working_tree false false false [vendor_lib; yolov5]))
      "git" false false ∧
  returns (repository_tags
             (at_root (working_tree false false false [yolov5; vendor_lib]))
             "git" false false).
Proof.
  apply (order_of_submodules_is_immaterial
           (at_root (working_tree false false false [yolov5; vendor_lib]))
           (at_root (working_tree false false false [vendor_lib; yolov5]))
           "git" false false
           (working_tree false false false [yolov5; vendor_lib])
           (working_tree false false false [vendor_lib; yolov5])
           false false
           (PyHead "add_mlflow")
           (PyStr "8077f7c47bc1ccc592187374a4bd5c967483910b")
           (PyStr "git@github.com:YoRigid/scenera-yolov5.git")
           [yolov5; vendor_lib] [vendor_lib; yolov5]).
  - reflexivity.
  - reflexivity.
  - reflexivity.
  - reflexivity.
  - reflexivity.
  - reflexivity.
  - repeat split; try reflexivity. repeat constructor.
  - repeat split; try reflexivity. repeat constructor.
  - apply perm_swap.
  - compute_done.
Defined.

(** ** The number of entries *)

Lemma remove_dups_length_le (l : list string) :
  (length (remove_dups l) ≤ length l)%nat.
Proof.
  induction l as [|x l IH]; simpl; [done |].
  case_decide; simpl; lia.
Qed.

Lemma remove_dups_length_eq (l : list string) :
  length (remove_dups l) = length l ↔ NoDup l.
Proof.
  induction l as [|x l IH]; simpl.
  - split; [constructor | done].
  - pose proof (remove_dups_length_le l). rewrite NoDup_cons.
    case_decide; simpl; [split; [lia | tauto] |].
    rewrite <- IH. split; [intros [= E]; by split | intros [_ E]; by rewrite E].
Qed.

(** The keys of the submodules number three for each distinct name. *)
Lemma size_submodule_keys (p : string) (subs : list Submodule) :
  size (⋃ ((λ s, keys_under (submodule_prefix p s)) <$> subs) : gset string)
  = 3 * length (remove_dups (name <$> subs)).
Proof.
  induction subs as [|s subs IH]; [done |].
  rewrite !fmap_cons. simpl remove_dups. simpl union_list.
  case_decide as Hdup.
  - rewrite <- IH. f_equal. apply subseteq_union_1_L.
    apply list_elem_of_fmap in Hdup as (s' & Hname & Hin).
    intros k Hk. apply elem_of_union_list.
    exists (keys_under (submodule_prefix p s')). split.
    + by apply (list_elem_of_fmap_2 (λ s, keys_under (submodule_prefix p s))).
    + unfold submodule_prefix in *. by rewrite <- Hname.
  - rewrite size_union, size_keys_under, IH; [simpl; lia |].
    intros k Hk Hrest.
    apply elem_of_union_list in Hrest as (X & HX & Hk').
    apply list_elem_of_fmap in HX as (s' & -> & Hin).
    apply Hdup. apply list_elem_of_fmap. exists s'. split; [| done].
    by apply (submodule_prefix_inj p), (keys_under_meet _ _ k).
Qed.

Lemma keys_under_submodule_keys_disjoint (p : string) (subs : list Submodule) :
  keys_under p ## (⋃ ((λ s, keys_under (submodule_prefix p s)) <$> subs) : gset string).
Proof.
  intros k Hk Hrest.
  apply elem_of_union_list in Hrest as (X & HX & Hk').
  apply list_elem_of_fmap in HX as (s & -> & _).
  by apply (keys_under_submodule_disjoint p s k).
Qed.

(** X9: a returned dictionary has three entries for the main repository and
    three more for each distinct submodule name: it is never empty, and it
    has three entries for every submodule exactly when no two submodules
    share a name. *)
Theorem entry_count (git : GitPython) (prefix : string) (spd sup : bool)
    (m : gmap string pyobj) (repo : Repo) (subs : list Submodule) :
  repository_tags git prefix spd sup = Return m →
  Repo_init git spd = Return repo →
  submodules repo = Return subs →
  size m = 3 + 3 * length (remove_dups (name <$> subs)) ∧
  (size m = 3 + 3 * length subs ↔ NoDup (name <$> subs)).
Proof.
  intros Hcall Hrepo Hsubs.
  assert (size m = 3 + 3 * length (remove_dups (name <$> subs))) as Hsize.
  { rewrite <- size_dom, (returned_dom _ _ _ _ _ _ _ Hcall Hrepo Hsubs).
    rewrite size_union by apply keys_under_submodule_keys_disjoint.
    by rewrite size_keys_under, size_submodule_keys. }
  split; [done |].
  rewrite Hsize, <- remove_dups_length_eq, length_fmap. lia.
Qed.

Lemma entry_count_witness :
  size ({[ "git-branch" := PyStr "add_mlflow";
           "git-hash" := PyStr "8077f7c47bc1ccc592187374a4bd5c967483910b";
           "git-origin" := PyStr "git@github.com:YoRigid/scenera-yolov5.git";
           "git-submodule-yolov5-branch" := PyStr "develop";
           "git-submodule-yolov5-hash" := PyStr "0123456789abcdef0123456789abcdef01234567";
           "git-submodule-yolov5-origin" := PyStr "https://example.com/fork/yolov5" ]}
        : gmap string pyobj)
    = 3 + 3 * length (remove_dups (name <$> [yolov5; yolov5_fork])) ∧
  (size ({[ "git-branch" := PyStr "add_mlflow";
            "git-hash" := PyStr "8077f7c47bc1ccc592187374a4bd5c967483910b";
            "git-origin" := PyStr "git@github.com:YoRigid/scenera-yolov5.git";
            "git-submodule-yolov5-branch" := PyStr "develop";
            "git-submodule-yolov5-hash" := PyStr "0123456789abcdef0123456789abcdef01234567";
            "git-submodule-yolov5-origin" := PyStr "https://example.com/fork/yolov5" ]}
         : gmap string pyobj)
     = 3 + 3 * length [yolov5; yolov5_fork] ↔
   NoDup (name <$> [yolov5; yolov5_fork])).
Proof.
  apply (entry_count
           (at_root (working_tree false false false [yolov5; yolov5_fork]))
           "git" false false _
           (working_tree false false false [yolov5; yolov5_fork])).
  - reflexivity.
  - reflexivity.
  - reflexivity.
Defined.

(** ** The prefix as a namespace *)

(** Looking up under a common prefix is looking up what follows it. *)
Lemma lookup_dict3_strip (p a b c : string) (v1 v2 v3 : pyobj) (rest : string) :
  dict3 (p +:+ a) v1 (p +:+ b) v2 (p +:+ c) v3 !! (p +:+ rest)
  = dict3 a v1 b v2 c v3 !! rest.
Proof.
  unfold dict3. rewrite !lookup_insert, !lookup_empty.
  repeat case_decide; simplify_eq; done.
Qed.

Lemma lookup_submodule_entries_strip (p : string) (s : Submodule)
    (sb sh su : pyobj) (rest : string) :
  dict3 (branch_key (submodule_prefix p s)) sb
        (hash_key (submodule_prefix p s)) sh
        (origin_key (submodule_prefix p s)) su !! (p +:+ rest)
  = dict3 (branch_key ("-submodule-" +:+ name s)) sb
          (hash_key ("-submodule-" +:+ name s)) sh
          (origin_key ("-submodule-" +:+ name s)) su !! rest.
Proof.
  unfold branch_key, hash_key, origin_key, submodule_prefix.
  rewrite !(append_assoc p). apply lookup_dict3_strip.
Qed.

(** Two runs of the loop under two prefixes, on dictionaries that agree up
    to the prefix, fail alike or end in dictionaries that agree up to the
    prefix. *)
Lemma for_submodules_rename (p q : string) (subs : list Submodule)
    (data data' : gmap string pyobj) :
  (∀ rest, data !! (p +:+ rest) = data' !! (q +:+ rest)) →
  match for_submodules p subs data, for_submodules q subs data' with
  | Return d, Return d' => ∀ rest, d !! (p +:+ rest) = d' !! (q +:+ rest)
  | Raise e, Raise e' => e = e'
  | _, _ => False
  end.
Proof.
  revert data data'. induction subs as [|s subs IH]; intros data data' Hagree.
  - done.
  - simpl. destruct (branch s) as [sb|]; simpl; [| done].
    destruct (hexsha s) as [sh|]; simpl; [| done].
    destruct (url s) as [su|]; simpl; [| done].
    apply IH. intros rest.
    rewrite !lookup_dict_update, !lookup_submodule_entries_strip.
    by rewrite Hagree.
Qed.

(** X10: the prefix is a namespace and nothing more: on the same
    repository, calls under two prefixes raise the same exception, or return
    dictionaries that hold the same value at every pair of keys that differ
    by the prefix alone. *)
Theorem prefix_only_renames_keys (git : GitPython) (p q : string)
    (spd sup : bool) :
  match repository_tags git p spd sup, repository_tags git q spd sup with
  | Return m, Return m' =>
      ∀ rest, m !! (py_or p "git" +:+ rest) = m' !! (py_or q "git" +:+ rest)
  | Raise e, Raise e' => e = e'
  | _, _ => False
  end.
Proof.
  unfold repository_tags.
  destruct (Repo_init git spd) as [repo|]; simpl; [| done].
  destruct (is_dirty repo true true) as [d|]; simpl; [| done].
  destruct (d && negb sup); [done |].
  destruct (active_branch repo) as [b|]; simpl; [| done].
  destruct (head_object_hexsha repo) as [h|]; simpl; [| done].
  destruct (remotes_origin_url repo) as [o|]; simpl; [| done].
  destruct (submodules repo) as [subs|]; simpl; [| done].
  pose proof (for_submodules_rename (py_or p "git") (py_or q "git") subs
                (dict3 (branch_key (py_or p "git")) b
                       (hash_key (py_or p "git")) h
                       (origin_key (py_or p "git")) o)
                (dict3 (branch_key (py_or q "git")) b
                       (hash_key (py_or q "git")) h
                       (origin_key (py_or q "git")) o)) as Hloop.
  destruct (for_submodules (py_or p "git") subs _) as [data|],
           (for_submodules (py_or q "git") subs _) as [data'|]; simpl.
  - intros rest. rewrite !lookup_fmap. f_equal. apply Hloop.
    intros rest'. unfold branch_key, hash_key, origin_key.
    by rewrite !lookup_dict3_strip.
  - apply Hloop. intros rest'. unfold branch_key, hash_key, origin_key.
    by rewrite !lookup_dict3_strip.
  - apply Hloop. intros rest'. unfold branch_key, hash_key, origin_key.
    by rewrite !lookup_dict3_strip.
  - apply Hloop. intros rest'. unfold branch_key, hash_key, origin_key.
    by rewrite !lookup_dict3_strip.
Qed.
